(** * get_lol_id.py: the participants of a player's active game

    A shallow embedding of the script [get_lol_id.py] and of the
    fragment of Python it runs on: text, JSON-shaped values, subscripting,
    iteration, [repr], [print], [sys.exit], and the two operations of the
    client library the script consumes.  The script is a straight line
    of effects, so it is written in a small trace-and-stop monad; the
    client library is a parameter, so that any stub or the real service
    can stand behind it.

    Taken for granted: the client library is installed, so that the
    [import] on the script's first line succeeds; standard output
    accepts the text written to it; and no signal reaches the process
    while the script's own statements run (what happens inside a call of
    the client library, an interruption included, is the call's result,
    see [result]). *)

From Stdlib Require Import List NArith ZArith Ascii String DecimalString Bool Lia.
Import ListNotations.

Set Warnings "-register-all".

Local Open Scope N_scope.

(** ** Text *)

(** A Python [str] is a sequence of Unicode code points. *)
Definition codepoint := N.
Definition str := list codepoint.

(** Source literals are ASCII; [lit] reads one off a Rocq string. *)
Definition lit (s : string) : str := map N_of_ascii (list_ascii_of_string s).

Definition str_eq_dec : forall a b : str, {a = b} + {a <> b} :=
  list_eq_dec N.eq_dec.

Fixpoint join (sep : str) (parts : list str) : str :=
  match parts with
  | [] => []
  | [p] => p
  | p :: rest => p ++ sep ++ join sep rest
  end.

(** ** Values *)

(** What the client library hands back is decoded JSON: [None], booleans,
    integers, floats, strings, lists and dicts with string keys.  A dict
    keeps its items in insertion order, which is the order [repr] and
    iteration use; it is the list of its items, looked up from the front.
    The script never computes with a float, it can only print one, so a
    float is carried by the text [repr] gives for it. *)
Inductive value : Type :=
| VNone
| VBool (b : bool)
| VInt (z : Z)
| VFloat (shown : str)
| VStr (s : str)
| VList (items : list value)
| VDict (items : list (str * value)).

(** ** Exceptions and results *)

(** The errors that can travel through the script, all of them
    exceptions that derive from [Exception]: the three the interpreter
    raises for the script's own subscripts, and the errors of the client
    library (an API error for a rejected credential or a player who is
    not in a game, a [ValueError], a connection error), kept as the
    exception's class name and its message. *)
Inductive exn : Type :=
| KeyError (key : str)
| TypeError
| IndexError
| LibraryError (class_name message : str).

(** An evaluation returns, raises an error, or leaves the interpreter
    otherwise: a call into the client library can raise [SystemExit] or
    be cut short by [KeyboardInterrupt], which are no errors.  The script
    catches neither, so all that is kept of such an ending is what the
    interpreter makes of it: the exit status, and the text written to
    standard error (none for [SystemExit] with an integer code). *)
Inductive result (A : Type) : Type :=
| Ok (a : A)
| Raise (e : exn)
| Leave (exit_code : Z) (report : str).
Arguments Ok {A} a.
Arguments Raise {A} e.
Arguments Leave {A} exit_code report.

Definition result_bind {A B} (r : result A) (f : A -> result B) : result B :=
  match r with
  | Ok a => f a
  | Raise e => Raise e
  | Leave exit_code report => Leave exit_code report
  end.

(** ** Subscripting and iteration *)

Fixpoint dict_get (key : str) (items : list (str * value)) : option value :=
  match items with
  | [] => None
  | (k, v) :: rest => if str_eq_dec key k then Some v else dict_get key rest
  end.

(** [obj[key]] for a string [key]: a dict looks the key up and raises
    [KeyError] when it is absent; lists and strings take integer indices
    only, and the remaining values are not subscriptable at all. *)
Definition getitem (obj : value) (key : str) : result value :=
  match obj with
  | VDict items =>
      match dict_get key items with
      | Some v => Ok v
      | None => Raise (KeyError key)
      end
  | _ => Raise TypeError
  end.

(** [sys.argv[i]] *)
Definition argv_at (argv : list str) (i : nat) : result str :=
  match nth_error argv i with
  | Some a => Ok a
  | None => Raise IndexError
  end.

(** What a [for] clause draws from a value: the items of a list, the keys
    of a dict, the one-character strings of a string; nothing else among
    the JSON values is iterable. *)
Definition iter (obj : value) : result (list value) :=
  match obj with
  | VList items => Ok items
  | VDict items => Ok (map (fun kv => VStr (fst kv)) items)
  | VStr s => Ok (map (fun c => VStr [c]) s)
  | _ => Raise TypeError
  end.

(** [[f(x) for x in xs]]: elements are evaluated in order and the first
    exception ends the comprehension. *)
Fixpoint comprehension (f : value -> result value) (xs : list value)
  : result (list value) :=
  match xs with
  | [] => Ok []
  | x :: rest =>
      result_bind (f x) (fun y =>
      result_bind (comprehension f rest) (fun ys =>
      Ok (y :: ys)))
  end.

(** ** [repr] *)

Section Repr.

(** The interpreter's table of printable code points (Unicode
    categories other than the separators and "other", plus the ASCII
    space).  [repr] consults it for code points from 128 on only; it is
    data of the interpreter, not of this repository, and stays a
    parameter. *)
Variable isprintable : codepoint -> bool.

Definition hexdigit (n : N) : codepoint :=
  if n <? 10 then 48 + n else 87 + n.

Definition hex_at (ch : codepoint) (nibble : N) : codepoint :=
  hexdigit (N.land (N.shiftr ch (4 * nibble)) 15).

Definition backslash : codepoint := 92.

(** One character inside the quotes. *)
Definition repr_char (quote ch : codepoint) : str :=
  if (ch =? quote) || (ch =? backslash) then [backslash; ch]
  else if ch =? 9 then lit "\t"
  else if ch =? 10 then lit "\n"
  else if ch =? 13 then lit "\r"
  else if (ch <? 32) || (ch =? 127) then
    lit "\x" ++ [hex_at ch 1; hex_at ch 0]
  else if ch <? 127 then [ch]
  else if isprintable ch then [ch]
  else if ch <=? 255 then
    lit "\x" ++ [hex_at ch 1; hex_at ch 0]
  else if ch <=? 65535 then
    lit "\u" ++ [hex_at ch 3; hex_at ch 2; hex_at ch 1; hex_at ch 0]
  else
    lit "\U" ++ [hex_at ch 7; hex_at ch 6; hex_at ch 5; hex_at ch 4;
                 hex_at ch 3; hex_at ch 2; hex_at ch 1; hex_at ch 0].

Definition single_quote : codepoint := 39.
Definition double_quote : codepoint := 34.

(** Single quotes, unless the text holds a single quote and no double
    quote. *)
Definition quote_for (s : str) : codepoint :=
  if existsb (N.eqb single_quote) s && negb (existsb (N.eqb double_quote) s)
  then double_quote
  else single_quote.

Definition repr_str (s : str) : str :=
  let quote := quote_for s in
  [quote] ++ flat_map (repr_char quote) s ++ [quote].

Definition repr_int (z : Z) : str :=
  lit (NilZero.string_of_int (Z.to_int z)).

Fixpoint repr (v : value) : str :=
  match v with
  | VNone => lit "None"
  | VBool true => lit "True"
  | VBool false => lit "False"
  | VInt z => repr_int z
  | VFloat shown => shown
  | VStr s => repr_str s
  | VList items => lit "[" ++ join (lit ", ") (map repr items) ++ lit "]"
  | VDict items =>
      lit "{"
      ++ join (lit ", ")
           (map (fun kv => match kv with
                           | (k, x) => repr_str k ++ lit ": " ++ repr x
                           end) items)
      ++ lit "}"
  end.

End Repr.

(** ** Effects *)

(** What a Python process can do to its surroundings, as far as the
    claims about this script distinguish: build a client of the game-data
    service, send it the "active game" request, write to one of the two
    standard streams, touch a file, read an environment variable. *)
Inductive event : Type :=
| Construct (api_key : str)
| Request (region player : str)
| Stdout (text : str)
| Stderr (text : str)
| FileRead (path : str)
| FileWrite (path : str)
| EnvRead (name : str).

(** A script stops early through [sys.exit], through an error nothing
    catches, or because a call into the client library left the
    interpreter. *)
Inductive stop : Type :=
| SystemExit (code : Z)
| Uncaught (e : exn)
| ClientLeft (exit_code : Z) (report : str).

Inductive step (A : Type) : Type :=
| Next (a : A)
| Stop (s : stop).
Arguments Next {A} a.
Arguments Stop {A} s.

(** A statement yields the events it caused, in order, and either a
    value to go on with or the reason the script stopped. *)
Definition script (A : Type) : Type := list event * step A.

Definition ret {A} (a : A) : script A := ([], Next a).

Definition bind {A B} (m : script A) (k : A -> script B) : script B :=
  match m with
  | (t, Next a) => let (t', r) := k a in (t ++ t', r)
  | (t, Stop s) => (t, Stop s)
  end.

Declare Scope script_scope.
Delimit Scope script_scope with script.
Notation "x <- m ;; k" := (bind m (fun x => k))
  (at level 61, m at next level, right associativity) : script_scope.
Notation "m ;; k" := (bind m (fun _ => k))
  (at level 61, right associativity) : script_scope.

(** An expression that raises stops the script: there is no [try] in it.
    The script stops without a further effect of its own; the report of
    the uncaught error is the interpreter's, written once the script has
    stopped, see [python3]. *)
Definition eval {A} (r : result A) : script A :=
  match r with
  | Ok a => ret a
  | Raise e => ([], Stop (Uncaught e))
  | Leave exit_code report => ([], Stop (ClientLeft exit_code report))
  end.

Definition newline : str := [10].

(** [print(s)] for a string writes the string itself and a newline to
    standard output. *)
Definition print_str (s : str) : script unit :=
  ([Stdout (s ++ newline)], Next tt).

(** [print(v)] for any other value writes its [repr]. *)
Definition print_value (isprintable : codepoint -> bool) (v : value)
  : script unit :=
  ([Stdout (repr isprintable v ++ newline)], Next tt).

Definition sys_exit {A} (code : Z) : script A := ([], Stop (SystemExit code)).

(** ** The client library *)

(** The two operations of the client library the script uses: building a
    client from a credential, and the "active game" request of a client
    for a region and a player.  Either may return, raise an error or
    leave the interpreter.  A [library] value is one behaviour of the
    service: the real one at some moment, or a stub. *)
Record library : Type := Library {
  watcher : Type;
  LolWatcher : str -> result watcher;
  by_summoner : watcher -> str -> str -> result value
}.

(** [LolWatcher(api_key)]: the event records that the constructor was
    entered, whether or not it returns a client. *)
Definition new_LolWatcher (lib : library) (api_key : str)
  : script (watcher lib) :=
  match LolWatcher lib api_key with
  | Ok w => ([Construct api_key], Next w)
  | Raise e => ([Construct api_key], Stop (Uncaught e))
  | Leave exit_code report =>
      ([Construct api_key], Stop (ClientLeft exit_code report))
  end.

(** [lol_watcher.spectator.by_summoner(region, player)]: the call returns
    once the response is there. *)
Definition spectator_by_summoner (lib : library) (lol_watcher : watcher lib)
    (region player : str) : script value :=
  match by_summoner lib lol_watcher region player with
  | Ok response => ([Request region player], Next response)
  | Raise e => ([Request region player], Stop (Uncaught e))
  | Leave exit_code report =>
      ([Request region player], Stop (ClientLeft exit_code report))
  end.

(** ** The script *)

Local Open Scope script_scope.

Definition usage : str := lit "Usage: python3 get_lol_id.py <api_key> <puuid>".

(** [[participant['riotId'] for participant in game_data['participants']]] *)
Definition riot_ids_of (game_data : value) : result (list value) :=
  result_bind (getitem game_data (lit "participants")) (fun participants =>
  result_bind (iter participants) (fun each =>
  comprehension (fun participant => getitem participant (lit "riotId")) each)).

(** The module body, statement by statement:
<<
    if len(sys.argv) != 3:
        print("Usage: python3 get_lol_id.py <api_key> <puuid>")
        sys.exit(1)
    api_key = sys.argv[1]
    puuid = sys.argv[2]
    lol_watcher = LolWatcher(api_key)
    game_data = lol_watcher.spectator.by_summoner('jp1', puuid)
    riot_ids = [participant['riotId'] for participant in game_data['participants']]
    print(riot_ids)
>>
    [argv] is [sys.argv]: the script's name, then the arguments. *)
Definition main (isprintable : codepoint -> bool) (lib : library)
    (argv : list str) : script unit :=
  if negb (Nat.eqb (List.length argv) 3) then
    print_str usage ;;
    sys_exit 1
  else
    api_key <- eval (argv_at argv 1) ;;
    puuid <- eval (argv_at argv 2) ;;
    lol_watcher <- new_LolWatcher lib api_key ;;
    game_data <- spectator_by_summoner lib lol_watcher (lit "jp1") puuid ;;
    riot_ids <- eval (riot_ids_of game_data) ;;
    print_value isprintable (VList riot_ids).

(** ** The process *)

(** The interpreter turns the way the script ended into the exit status:
    0 when it ran off its end, the code given to [sys.exit], 1 when an
    error reached the top level, and the status that comes with the way
    a client call left the interpreter. *)
Definition exit_status {A} (r : step A) : Z :=
  match r with
  | Next _ => 0%Z
  | Stop (SystemExit code) => code
  | Stop (Uncaught _) => 1%Z
  | Stop (ClientLeft exit_code _) => exit_code
  end.

(** What the interpreter writes to standard error for an error that
    reached the top level: the traceback, which opens with a fixed line
    and goes on with the stack frames and the line that names the
    error.  The frames hold file paths of the installation and are the
    interpreter's to render: [frames] is a parameter. *)
Definition traceback_header : str := lit "Traceback (most recent call last):".

Definition traceback (frames : exn -> str) (e : exn) : str :=
  traceback_header ++ [10] ++ frames e.

(** A report is written only if there is text to write. *)
Definition write_stderr (text : str) : list event :=
  match text with
  | [] => []
  | _ => [Stderr text]
  end.

(** What the interpreter adds once the script has stopped. *)
Definition at_exit (frames : exn -> str) (r : step unit) : list event :=
  match r with
  | Next _ => []
  | Stop (SystemExit _) => []
  | Stop (Uncaught e) => [Stderr (traceback frames e)]
  | Stop (ClientLeft _ report) => write_stderr report
  end.

Definition trace {A} (p : script A) : list event := fst p.
Definition outcome {A} (p : script A) : step A := snd p.
Definition status {A} (p : script A) : Z := exit_status (snd p).

(** The text that reached standard output, and the requests sent. *)
Fixpoint stdout_of (t : list event) : str :=
  match t with
  | [] => []
  | Stdout text :: rest => text ++ stdout_of rest
  | _ :: rest => stdout_of rest
  end.

Fixpoint requests_of (t : list event) : list (str * str) :=
  match t with
  | [] => []
  | Request region player :: rest => (region, player) :: requests_of rest
  | _ :: rest => requests_of rest
  end.

Fixpoint constructions_of (t : list event) : list str :=
  match t with
  | [] => []
  | Construct api_key :: rest => api_key :: constructions_of rest
  | _ :: rest => constructions_of rest
  end.

Fixpoint stderr_of (t : list event) : str :=
  match t with
  | [] => []
  | Stderr text :: rest => text ++ stderr_of rest
  | _ :: rest => stderr_of rest
  end.

Definition is_stdout (e : event) : bool :=
  match e with Stdout _ => true | _ => false end.

Definition is_request (e : event) : bool :=
  match e with Request _ _ => true | _ => false end.

(** The effects the specification allows the script. *)
Definition permitted (e : event) : bool :=
  match e with
  | Construct _ | Request _ _ | Stdout _ => true
  | Stderr _ | FileRead _ | FileWrite _ | EnvRead _ => false
  end.

(** [python3 get_lol_id.py ...]: the effects of the whole process, those
    of the script followed by what the interpreter adds at the end, and
    the exit status. *)
Definition python3 (isprintable : codepoint -> bool) (frames : exn -> str)
    (lib : library) (argv : list str) : list event * Z :=
  (trace (main isprintable lib argv)
     ++ at_exit frames (outcome (main isprintable lib argv)),
   status (main isprintable lib argv)).

Definition is_stderr (e : event) : bool :=
  match e with Stderr _ => true | _ => false end.

(** Effects on what outlives a run or surrounds it: files and the
    environment. *)
Definition touches_files_or_environment (e : event) : bool :=
  match e with
  | FileRead _ | FileWrite _ | EnvRead _ => true
  | Construct _ | Request _ _ | Stdout _ | Stderr _ => false
  end.

(** A client whose calls return or raise errors, and never leave the
    interpreter themselves. *)
Definition raises_errors_only (lib : library) : Prop :=
  (forall api_key exit_code report,
      LolWatcher lib api_key <> Leave exit_code report)
  /\ (forall w region player exit_code report,
        by_summoner lib w region player <> Leave exit_code report).

(** ** Stub clients *)

(** A client that accepts every credential and answers every request the
    same way. *)
Definition stub (answer : result value) : library :=
  {| watcher := unit;
     LolWatcher := fun _ => Ok tt;
     by_summoner := fun _ _ _ => answer |}.

(** A client that, like the real one, cannot be built from an empty
    credential. *)
Definition keyed_stub (answer : result value) : library :=
  {| watcher := str;
     LolWatcher := fun api_key =>
       match api_key with
       | [] => Raise (LibraryError (lit "ValueError")
                        (lit "Either api_key or kernel_url must be set!"))
       | _ => Ok api_key
       end;
     by_summoner := fun _ _ _ => answer |}.

(** The two ways a client call leaves the interpreter.  [SystemExit]
    raised with an integer code between 0 and 255 ends the process with
    that code and writes nothing; a [KeyboardInterrupt] has the
    interpreter write its report and end by the interrupt signal, which
    a shell shows as status 130. *)
Definition raise_SystemExit {A} (code : Z) : result A := Leave code [].

Definition raise_KeyboardInterrupt {A} : result A :=
  Leave 130 (traceback_header ++ [10] ++ lit "KeyboardInterrupt" ++ [10]).

Definition unauthorized : exn :=
  LibraryError (lit "ApiError") (lit "401 Client Error: Unauthorized").

(** A rendering of tracebacks that leaves the frames out. *)
Definition no_frames : exn -> str := fun _ => [].

(** A table for runs over ASCII text, where [repr] never consults it. *)
Definition ascii_table : codepoint -> bool := fun _ => false.

Definition player (riot_id : string) : value :=
  VDict [(lit "riotId", VStr (lit riot_id))].

Definition game (participants : list value) : value :=
  VDict [(lit "gameId", VInt 7271); (lit "participants", VList participants)].

(** A record has a field when subscripting it by the field's name
    returns. *)
Definition has_field (obj : value) (key : str) : bool :=
  match getitem obj key with
  | Ok _ => true
  | Raise _ | Leave _ _ => false
  end.

Definition script_name : str := lit "get_lol_id.py".

(** The ASCII control characters: what lies below the space, and DEL. *)
Definition ascii_control (c : codepoint) : bool := (c <? 32) || (c =? 127).

Definition is_str (v : value) : bool :=
  match v with VStr _ => true | _ => false end.

Definition is_list (v : value) : bool :=
  match v with VList _ => true | _ => false end.

(** A participant record that holds no 'riotId'. *)
Definition nameless : value := VDict [(lit "puuid", VNone)].

(** * Properties *)

(** ** [repr] on sample values *)

Example repr_quotes :
  repr_str ascii_table (lit "it's")
  = [double_quote] ++ lit "it's" ++ [double_quote].
Proof. reflexivity. Qed.

Example repr_nested :
  repr ascii_table
    (VDict [(lit "ids", VList [VInt (-12); VInt 0; VNone; VBool true;
                               VStr (lit "A#1" ++ [10; 233])])])
  = lit "{'ids': [-12, 0, None, True, 'A#1\n\xe9']}".
Proof. reflexivity. Qed.

(** ** Runs that a client call ends *)

Example client_exits_with_zero :
  python3 ascii_table no_frames (stub (raise_SystemExit 0))
    [script_name; lit "RGAPI-0000"; lit "puuid-1"]
  = ([Construct (lit "RGAPI-0000"); Request (lit "jp1") (lit "puuid-1")], 0%Z).
Proof. reflexivity. Qed.

Example client_is_interrupted :
  snd (python3 ascii_table no_frames (stub raise_KeyboardInterrupt)
         [script_name; lit "RGAPI-0000"; lit "puuid-1"]) = 130%Z
  /\ stdout_of (fst (python3 ascii_table no_frames (stub raise_KeyboardInterrupt)
                       [script_name; lit "RGAPI-0000"; lit "puuid-1"])) = []
  /\ existsb is_stderr
       (fst (python3 ascii_table no_frames (stub raise_KeyboardInterrupt)
               [script_name; lit "RGAPI-0000"; lit "puuid-1"])) = true.
Proof. repeat split. Qed.

Example uncaught_error_is_reported :
  python3 ascii_table no_frames (stub (Raise unauthorized))
    [script_name; lit "RGAPI-expired"; lit "puuid-1"]
  = ([Construct (lit "RGAPI-expired"); Request (lit "jp1") (lit "puuid-1");
      Stderr (traceback no_frames unauthorized)], 1%Z).
Proof. reflexivity. Qed.

(** Up to code point 127 the table of printable code points is not
    looked at. *)
Lemma repr_char_ascii table1 table2 quote ch :
  ch <= 127 -> repr_char table1 quote ch = repr_char table2 quote ch.
Proof.
  intros H. unfold repr_char.
  destruct ((ch =? quote) || (ch =? backslash)); [reflexivity|].
  destruct (ch =? 9); [reflexivity|].
  destruct (ch =? 10); [reflexivity|].
  destruct (ch =? 13); [reflexivity|].
  destruct (N.eqb_spec ch 127) as [->|Hne]; [reflexivity|].
  rewrite orb_false_r.
  destruct (ch <? 32); [reflexivity|].
  destruct (N.ltb_spec ch 127) as [_|Hge]; [reflexivity|lia].
Qed.

(** ** The two paths of the script *)

Lemma two_arguments (argv : list str) :
  List.length argv = 3%nat <->
  exists prog api_key puuid, argv = [prog; api_key; puuid].
Proof.
  split.
  - destruct argv as [|a [|b [|c [|d rest]]]]; simpl; try discriminate.
    intros _. now exists a, b, c.
  - intros (a & b & c & ->). reflexivity.
Qed.

Lemma main_usage isprintable lib argv :
  List.length argv <> 3%nat ->
  main isprintable lib argv = ([Stdout (usage ++ newline)], Stop (SystemExit 1)).
Proof.
  intros H. unfold main.
  destruct (Nat.eqb_spec (List.length argv) 3) as [E|_]; [contradiction|].
  reflexivity.
Qed.

Lemma main_two_arguments isprintable lib prog api_key puuid :
  main isprintable lib [prog; api_key; puuid] =
  match LolWatcher lib api_key with
  | Raise e => ([Construct api_key], Stop (Uncaught e))
  | Leave exit_code report =>
      ([Construct api_key], Stop (ClientLeft exit_code report))
  | Ok w =>
      match by_summoner lib w (lit "jp1") puuid with
      | Raise e =>
          ([Construct api_key; Request (lit "jp1") puuid], Stop (Uncaught e))
      | Leave exit_code report =>
          ([Construct api_key; Request (lit "jp1") puuid],
           Stop (ClientLeft exit_code report))
      | Ok game_data =>
          match riot_ids_of game_data with
          | Raise e =>
              ([Construct api_key; Request (lit "jp1") puuid],
               Stop (Uncaught e))
          | Leave exit_code report =>
              ([Construct api_key; Request (lit "jp1") puuid],
               Stop (ClientLeft exit_code report))
          | Ok riot_ids =>
              ([Construct api_key; Request (lit "jp1") puuid;
                Stdout (repr isprintable (VList riot_ids) ++ newline)],
               Next tt)
          end
      end
  end.
Proof.
  unfold main, new_LolWatcher, spectator_by_summoner. cbn [List.length Nat.eqb negb argv_at nth_error eval ret bind].
  destruct (LolWatcher lib api_key) as [w|e|c r]; [|reflexivity..].
  cbn [bind app].
  destruct (by_summoner lib w (lit "jp1") puuid) as [game_data|e|c r];
    [|reflexivity..].
  cbn [bind app].
  destruct (riot_ids_of game_data) as [riot_ids|e|c r]; reflexivity.
Qed.

(** ** Subscripts and comprehensions *)

Lemma comprehension_all (f : value -> result value) xs ys :
  Forall2 (fun x y => f x = Ok y) xs ys -> comprehension f xs = Ok ys.
Proof.
  induction 1 as [|x y xs ys Hx _ IH]; simpl.
  - reflexivity.
  - rewrite Hx. simpl. rewrite IH. reflexivity.
Qed.

Lemma getitem_stays obj key exit_code report :
  getitem obj key <> Leave exit_code report.
Proof.
  destruct obj; simpl; try discriminate.
  destruct (dict_get key items); discriminate.
Qed.

Lemma comprehension_some_fails key xs :
  Exists (fun x => forall y, getitem x key <> Ok y) xs ->
  exists e, comprehension (fun x => getitem x key) xs = Raise e.
Proof.
  induction 1 as [x xs Hx | x xs _ [e IH]]; simpl.
  - destruct (getitem x key) as [y|e|c r] eqn:E.
    + now destruct (Hx y).
    + now exists e.
    + now apply getitem_stays in E.
  - destruct (getitem x key) as [y|e'|c r] eqn:E; simpl.
    + rewrite IH. now exists e.
    + now exists e'.
    + now apply getitem_stays in E.
Qed.

Lemma getitem_raises obj key e :
  getitem obj key = Raise e -> e = KeyError key \/ e = TypeError.
Proof.
  destruct obj; simpl; try (intros [= <-]; now right).
  destruct (dict_get key items); intros [= <-]. now left.
Qed.

Lemma iter_raises obj e : iter obj = Raise e -> e = TypeError.
Proof. destruct obj; simpl; intros [= <-]; reflexivity. Qed.

Lemma comprehension_raises key xs e :
  comprehension (fun x => getitem x key) xs = Raise e ->
  e = KeyError key \/ e = TypeError.
Proof.
  induction xs as [|x xs IH]; simpl; [discriminate|].
  destruct (getitem x key) as [y|e'|c r] eqn:E; simpl.
  - destruct (comprehension _ xs) as [ys|e''|c r]; simpl; try discriminate.
    intros [= <-]. now apply IH.
  - intros [= <-]. now apply getitem_raises in E.
  - discriminate.
Qed.

Lemma comprehension_stays key xs exit_code report :
  comprehension (fun x => getitem x key) xs <> Leave exit_code report.
Proof.
  induction xs as [|x xs IH]; simpl; [discriminate|].
  destruct (getitem x key) as [y|e|c r] eqn:E; simpl; try discriminate.
  - destruct (comprehension _ xs) as [ys|e|c r]; simpl; try discriminate.
    exact IH.
  - now apply getitem_stays in E.
Qed.

Lemma iter_stays obj exit_code report : iter obj <> Leave exit_code report.
Proof. destruct obj; discriminate. Qed.

Lemma riot_ids_of_stays game_data exit_code report :
  riot_ids_of game_data <> Leave exit_code report.
Proof.
  unfold riot_ids_of.
  destruct (getitem game_data (lit "participants")) as [ps|e|c r] eqn:E1;
    simpl; try discriminate.
  - destruct (iter ps) as [each|e|c r] eqn:E2; simpl; try discriminate.
    + apply comprehension_stays.
    + now apply iter_stays in E2.
  - now apply getitem_stays in E1.
Qed.

Lemma riot_ids_of_raises game_data e :
  riot_ids_of game_data = Raise e ->
  e = KeyError (lit "participants") \/ e = KeyError (lit "riotId")
  \/ e = TypeError.
Proof.
  unfold riot_ids_of.
  destruct (getitem game_data (lit "participants")) as [ps|e1|c r] eqn:E1;
    simpl; try discriminate.
  - destruct (iter ps) as [each|e2|c r] eqn:E2; simpl; try discriminate.
    + intros H. apply comprehension_raises in H. tauto.
    + intros [= <-]. apply iter_raises in E2. tauto.
  - intros [= <-]. apply getitem_raises in E1. tauto.
Qed.

Lemma has_field_false obj key :
  has_field obj key = false -> exists e, getitem obj key = Raise e.
Proof.
  unfold has_field.
  destruct (getitem obj key) as [v|e|c r] eqn:E; [discriminate| |].
  - now exists e.
  - now apply getitem_stays in E.
Qed.

Lemma existsb_lacks key xs :
  existsb (fun x => negb (has_field x key)) xs = true ->
  Exists (fun x => forall y, getitem x key <> Ok y) xs.
Proof.
  intros H. apply existsb_exists in H as (x & Hin & Hx).
  apply Exists_exists. exists x. split; [exact Hin|].
  intros y Hy. unfold has_field in Hx. rewrite Hy in Hx. discriminate.
Qed.

(** With two arguments and a client that is built, the trace opens with
    the construction and the request, and what follows holds no further
    request. *)
Lemma trace_after_request isprintable lib prog api_key puuid w :
  LolWatcher lib api_key = Ok w ->
  exists after,
    trace (main isprintable lib [prog; api_key; puuid])
    = [Construct api_key; Request (lit "jp1") puuid] ++ after
    /\ requests_of after = [].
Proof.
  intros Hw. rewrite main_two_arguments, Hw.
  destruct (by_summoner lib w (lit "jp1") puuid) as [game_data|e|c r];
    [destruct (riot_ids_of game_data) as [riot_ids|e|c r]| |].
  - now exists [Stdout (repr isprintable (VList riot_ids) ++ newline)].
  - now exists [].
  - now exists [].
  - now exists [].
  - now exists [].
Qed.

Lemma trace_without_client isprintable lib prog api_key puuid e :
  LolWatcher lib api_key = Raise e ->
  trace (main isprintable lib [prog; api_key; puuid]) = [Construct api_key].
Proof. intros Hw. rewrite main_two_arguments, Hw. reflexivity. Qed.

Lemma trace_when_client_leaves isprintable lib prog api_key puuid c r :
  LolWatcher lib api_key = Leave c r ->
  trace (main isprintable lib [prog; api_key; puuid]) = [Construct api_key].
Proof. intros Hw. rewrite main_two_arguments, Hw. reflexivity. Qed.

(** ** The claims *)

(** C1. Given two arguments, a client that is built and a response whose
    'participants' is a list of records that each hold a 'riotId', the
    script prints the list of those values in the order of the
    participants, and exits with status 0. *)
Theorem prints_riot_ids_in_order :
  forall isprintable lib prog api_key puuid w response participants ids,
    LolWatcher lib api_key = Ok w ->
    by_summoner lib w (lit "jp1") puuid = Ok response ->
    getitem response (lit "participants") = Ok (VList participants) ->
    Forall2 (fun p id => getitem p (lit "riotId") = Ok id) participants ids ->
    stdout_of (trace (main isprintable lib [prog; api_key; puuid]))
    = repr isprintable (VList ids) ++ newline
    /\ status (main isprintable lib [prog; api_key; puuid]) = 0%Z.
Proof.
  intros isprintable lib prog api_key puuid w response participants ids
         Hw Hr Hps Hids.
  rewrite main_two_arguments, Hw, Hr.
  unfold riot_ids_of. rewrite Hps. cbn [result_bind iter].
  rewrite (comprehension_all _ _ _ Hids).
  unfold trace, status. cbn [fst snd stdout_of exit_status].
  rewrite app_nil_r. split; reflexivity.
Qed.

(** The run of the specification: participants
    [[{"riotId": "A#1"}, {"riotId": "B#2"}]] print as ['A#1', 'B#2']. *)
Lemma prints_riot_ids_in_order_witness :
  stdout_of (trace (main ascii_table
                      (stub (Ok (game [player "A#1"; player "B#2"])))
                      [script_name; lit "RGAPI-0000"; lit "puuid-1"]))
  = lit "['A#1', 'B#2']" ++ newline
  /\ status (main ascii_table
               (stub (Ok (game [player "A#1"; player "B#2"])))
               [script_name; lit "RGAPI-0000"; lit "puuid-1"]) = 0%Z.
Proof.
  refine (prints_riot_ids_in_order ascii_table
            (stub (Ok (game [player "A#1"; player "B#2"])))
            script_name (lit "RGAPI-0000") (lit "puuid-1") tt
            (game [player "A#1"; player "B#2"])
            [player "A#1"; player "B#2"]
            [VStr (lit "A#1"); VStr (lit "B#2")] _ _ _ _).
  - reflexivity.
  - reflexivity.
  - reflexivity.
  - repeat constructor.
Defined.

(** C2. When the argument count is not two, the script prints the usage
    message, exits with status 1, sends no request and builds no
    client. *)
Theorem wrong_argument_count_usage :
  forall isprintable lib argv,
    List.length argv <> 3%nat ->
    stdout_of (trace (main isprintable lib argv)) = usage ++ newline
    /\ status (main isprintable lib argv) = 1%Z
    /\ status (main isprintable lib argv) <> 0%Z
    /\ requests_of (trace (main isprintable lib argv)) = []
    /\ constructions_of (trace (main isprintable lib argv)) = [].
Proof.
  intros isprintable lib argv H. rewrite (main_usage _ _ _ H).
  unfold trace, status. cbn [fst snd stdout_of exit_status requests_of constructions_of].
  rewrite app_nil_r. repeat split. discriminate.
Qed.

Lemma wrong_argument_count_usage_witness :
  List.length [script_name; lit "RGAPI-0000"] <> 3%nat
  /\ stdout_of (trace (main ascii_table (stub (Raise unauthorized))
                         [script_name; lit "RGAPI-0000"]))
     = lit "Usage: python3 get_lol_id.py <api_key> <puuid>" ++ newline
  /\ status (main ascii_table (stub (Raise unauthorized))
               [script_name; lit "RGAPI-0000"]) = 1%Z.
Proof.
  assert (H : List.length [script_name; lit "RGAPI-0000"] <> 3%nat)
    by (simpl; lia).
  split; [exact H|].
  destruct (wrong_argument_count_usage ascii_table (stub (Raise unauthorized))
              [script_name; lit "RGAPI-0000"] H) as (Hout & Hst & _).
  split; [exact Hout | exact Hst].
Defined.

(** C3. Given two arguments, an error raised by the client, whether
    while it is built or by the request, is not caught: the script stops
    on that very exception and the exit status is not 0. *)
Theorem client_error_propagates :
  forall isprintable lib prog api_key puuid e,
    (LolWatcher lib api_key = Raise e
     \/ exists w, LolWatcher lib api_key = Ok w
                  /\ by_summoner lib w (lit "jp1") puuid = Raise e) ->
    outcome (main isprintable lib [prog; api_key; puuid]) = Stop (Uncaught e)
    /\ status (main isprintable lib [prog; api_key; puuid]) <> 0%Z.
Proof.
  intros isprintable lib prog api_key puuid e H.
  rewrite main_two_arguments.
  destruct H as [Hw | (w & Hw & Hr)].
  - rewrite Hw. split; [reflexivity | discriminate].
  - rewrite Hw, Hr. split; [reflexivity | discriminate].
Qed.

Lemma client_error_propagates_witness :
  outcome (main ascii_table (stub (Raise unauthorized))
             [script_name; lit "RGAPI-expired"; lit "puuid-1"])
  = Stop (Uncaught unauthorized)
  /\ status (main ascii_table (stub (Raise unauthorized))
               [script_name; lit "RGAPI-expired"; lit "puuid-1"]) <> 0%Z.
Proof.
  apply (client_error_propagates ascii_table (stub (Raise unauthorized))
           script_name (lit "RGAPI-expired") (lit "puuid-1") unauthorized).
  right. exists tt. split; reflexivity.
Defined.

(** C4. Given two arguments, a client that is built and a response whose
    participant list is empty, the script prints [] and exits with
    status 0. *)
Theorem empty_participants_print_empty_list :
  forall isprintable lib prog api_key puuid w response,
    LolWatcher lib api_key = Ok w ->
    by_summoner lib w (lit "jp1") puuid = Ok response ->
    getitem response (lit "participants") = Ok (VList []) ->
    stdout_of (trace (main isprintable lib [prog; api_key; puuid]))
    = lit "[]" ++ newline
    /\ status (main isprintable lib [prog; api_key; puuid]) = 0%Z.
Proof.
  intros isprintable lib prog api_key puuid w response Hw Hr Hps.
  rewrite main_two_arguments, Hw, Hr.
  unfold riot_ids_of. rewrite Hps. split; reflexivity.
Qed.

Lemma empty_participants_print_empty_list_witness :
  stdout_of (trace (main ascii_table (keyed_stub (Ok (game [])))
                      [script_name; lit "RGAPI-0000"; lit "puuid-1"]))
  = lit "[]" ++ newline
  /\ status (main ascii_table (keyed_stub (Ok (game [])))
               [script_name; lit "RGAPI-0000"; lit "puuid-1"]) = 0%Z.
Proof.
  apply (empty_participants_print_empty_list ascii_table
           (keyed_stub (Ok (game [])))
           script_name (lit "RGAPI-0000") (lit "puuid-1")
           (lit "RGAPI-0000") (game [])).
  - reflexivity.
  - reflexivity.
  - reflexivity.
Defined.

(** C5. Given two arguments and a client that returns a response, if the
    response has no 'participants' field, or one of the participants the
    comprehension draws has no 'riotId' field, the script does not handle
    it: it stops on the exception of the failed subscript (a KeyError
    naming the missing field, or a TypeError when the value subscripted
    is no record), the exit status is not 0 and nothing has been written
    to standard output. *)
Theorem shape_mismatch_crashes :
  forall isprintable lib prog api_key puuid w response,
    LolWatcher lib api_key = Ok w ->
    by_summoner lib w (lit "jp1") puuid = Ok response ->
    (has_field response (lit "participants") = false
     \/ exists participants each,
          getitem response (lit "participants") = Ok participants
          /\ iter participants = Ok each
          /\ existsb (fun p => negb (has_field p (lit "riotId"))) each = true) ->
    exists e,
      outcome (main isprintable lib [prog; api_key; puuid]) = Stop (Uncaught e)
      /\ riot_ids_of response = Raise e
      /\ (e = KeyError (lit "participants") \/ e = KeyError (lit "riotId")
          \/ e = TypeError)
      /\ status (main isprintable lib [prog; api_key; puuid]) <> 0%Z
      /\ stdout_of (trace (main isprintable lib [prog; api_key; puuid])) = [].
Proof.
  intros isprintable lib prog api_key puuid w response Hw Hr Hshape.
  assert (Hraise : exists e, riot_ids_of response = Raise e).
  { unfold riot_ids_of.
    destruct Hshape as [Hno | (participants & each & Hps & Heach & Hsome)].
    - apply has_field_false in Hno as [e He]. rewrite He. now exists e.
    - rewrite Hps. cbn [result_bind]. rewrite Heach. cbn [result_bind].
      apply comprehension_some_fails, existsb_lacks, Hsome. }
  destruct Hraise as [e He]. exists e.
  rewrite main_two_arguments, Hw, Hr, He.
  repeat split.
  - exact (riot_ids_of_raises _ _ He).
  - discriminate.
Qed.

Lemma shape_mismatch_crashes_witness :
  exists e,
    outcome (main ascii_table
               (stub (Ok (game [player "A#1"; VDict [(lit "puuid", VNone)]])))
               [script_name; lit "RGAPI-0000"; lit "puuid-1"])
    = Stop (Uncaught e)
    /\ e = KeyError (lit "riotId")
    /\ stdout_of (trace (main ascii_table
               (stub (Ok (game [player "A#1"; VDict [(lit "puuid", VNone)]])))
               [script_name; lit "RGAPI-0000"; lit "puuid-1"])) = [].
Proof.
  destruct (shape_mismatch_crashes ascii_table
              (stub (Ok (game [player "A#1"; VDict [(lit "puuid", VNone)]])))
              script_name (lit "RGAPI-0000") (lit "puuid-1") tt
              (game [player "A#1"; VDict [(lit "puuid", VNone)]])
              eq_refl eq_refl)
    as (e & Hout & Hids & _ & _ & Hnone).
  - right.
    exists (VList [player "A#1"; VDict [(lit "puuid", VNone)]]),
           [player "A#1"; VDict [(lit "puuid", VNone)]].
    repeat split; reflexivity.
  - exists e. split; [exact Hout | split; [| exact Hnone]].
    vm_compute in Hids. now injection Hids as <-.
Defined.

(** C6. Given two arguments, every request the script sends names the
    region jp1 and the player given as second argument, whatever the two
    arguments are; once the client is built that request is sent, and the
    credential is no part of it. *)
Theorem request_has_fixed_region :
  forall isprintable lib prog api_key puuid,
    Forall (eq (lit "jp1", puuid))
      (requests_of (trace (main isprintable lib [prog; api_key; puuid])))
    /\ (forall w, LolWatcher lib api_key = Ok w ->
          requests_of (trace (main isprintable lib [prog; api_key; puuid]))
          = [(lit "jp1", puuid)]).
Proof.
  intros isprintable lib prog api_key puuid.
  rewrite main_two_arguments.
  destruct (LolWatcher lib api_key) as [w|e|c r];
    [destruct (by_summoner lib w (lit "jp1") puuid) as [game_data|e|c r];
     [destruct (riot_ids_of game_data) as [riot_ids|e|c r]| |]| |].
  all: split; [repeat constructor | intros w' Hw'; try discriminate; reflexivity].
Qed.

Lemma request_has_fixed_region_witness :
  requests_of (trace (main ascii_table (keyed_stub (Raise unauthorized))
                        [script_name; lit "jp1"; lit "kr"]))
  = [(lit "jp1", lit "kr")]
  /\ requests_of (trace (main ascii_table (keyed_stub (Raise unauthorized))
                           [script_name; lit "euw1"; lit "puuid-1"]))
     = [(lit "jp1", lit "puuid-1")].
Proof.
  split.
  - apply (proj2 (request_has_fixed_region ascii_table
                    (keyed_stub (Raise unauthorized))
                    script_name (lit "jp1") (lit "kr")) (lit "jp1")).
    reflexivity.
  - apply (proj2 (request_has_fixed_region ascii_table
                    (keyed_stub (Raise unauthorized))
                    script_name (lit "euw1") (lit "puuid-1")) (lit "euw1")).
    reflexivity.
Defined.

(** C7 does not hold as worded: with two arguments of which the
    credential is empty, the client cannot be built and the run ends
    without any request, where C7 counts exactly one. *)
Lemma empty_credential_sends_no_request :
  ~ (List.length [script_name; []; lit "puuid-1"] = 3%nat ->
     List.length
       (requests_of
          (trace (main ascii_table (keyed_stub (Ok (game [])))
                    [script_name; []; lit "puuid-1"]))) = 1%nat).
Proof. intros H. specialize (H eq_refl). discriminate H. Qed.

(** C7, with the construction of the client taken into account.  No run
    sends more than one request.  With an argument
    count other than two it sends none.  With two arguments it sends
    exactly one when the client is built, and none when building the
    client raises; the one request comes before anything is written to
    standard output, and none follows it. *)
Theorem at_most_one_request :
  forall isprintable lib argv,
    (List.length (requests_of (trace (main isprintable lib argv))) <= 1)%nat
    /\ (List.length argv <> 3%nat ->
        requests_of (trace (main isprintable lib argv)) = [])
    /\ (forall prog api_key puuid e,
          argv = [prog; api_key; puuid] ->
          LolWatcher lib api_key = Raise e ->
          requests_of (trace (main isprintable lib argv)) = [])
    /\ (forall prog api_key puuid w,
          argv = [prog; api_key; puuid] ->
          LolWatcher lib api_key = Ok w ->
          exists before after,
            trace (main isprintable lib argv)
            = before ++ Request (lit "jp1") puuid :: after
            /\ existsb is_stdout before = false
            /\ requests_of before = []
            /\ requests_of after = []).
Proof.
  intros isprintable lib argv.
  assert (Husage : List.length argv <> 3%nat ->
                   requests_of (trace (main isprintable lib argv)) = []).
  { intros H. rewrite (main_usage _ _ _ H). reflexivity. }
  split; [|split; [exact Husage|split]].
  - destruct (Nat.eq_dec (List.length argv) 3) as [H3|H3].
    + apply two_arguments in H3 as (prog & api_key & puuid & ->).
      destruct (LolWatcher lib api_key) as [w|e|c r] eqn:Hw.
      * destruct (trace_after_request isprintable lib prog api_key puuid w Hw)
          as (after & -> & Hafter).
        cbn [app requests_of]. rewrite Hafter. apply Nat.le_refl.
      * rewrite (trace_without_client _ _ _ _ _ _ Hw). cbn. lia.
      * rewrite (trace_when_client_leaves _ _ _ _ _ _ _ Hw). cbn. lia.
    + rewrite (Husage H3). cbn. lia.
  - intros prog api_key puuid e -> Hw.
    rewrite (trace_without_client _ _ _ _ _ _ Hw). reflexivity.
  - intros prog api_key puuid w -> Hw.
    destruct (trace_after_request isprintable lib prog api_key puuid w Hw)
      as (after & -> & Hafter).
    exists [Construct api_key], after. repeat split. exact Hafter.
Qed.

Lemma at_most_one_request_witness :
  requests_of (trace (main ascii_table (keyed_stub (Ok (game [player "A#1"])))
                        [script_name; []; lit "puuid-1"])) = []
  /\ exists before after,
       trace (main ascii_table (keyed_stub (Ok (game [player "A#1"])))
                [script_name; lit "RGAPI-0000"; lit "puuid-1"])
       = before ++ Request (lit "jp1") (lit "puuid-1") :: after
       /\ existsb is_stdout before = false
       /\ requests_of before = []
       /\ requests_of after = [].
Proof.
  split.
  - destruct (at_most_one_request ascii_table
                (keyed_stub (Ok (game [player "A#1"])))
                [script_name; []; lit "puuid-1"]) as (_ & _ & Hnone & _).
    apply (Hnone script_name [] (lit "puuid-1")
             (LibraryError (lit "ValueError")
                (lit "Either api_key or kernel_url must be set!"))).
    + reflexivity.
    + reflexivity.
  - destruct (at_most_one_request ascii_table
                (keyed_stub (Ok (game [player "A#1"])))
                [script_name; lit "RGAPI-0000"; lit "puuid-1"])
      as (_ & _ & _ & Hone).
    apply (Hone script_name (lit "RGAPI-0000") (lit "puuid-1")
             (lit "RGAPI-0000")).
    + reflexivity.
    + reflexivity.
Defined.

(** C8 does not hold as worded: when an error propagates, the
    interpreter writes the traceback to standard error, an effect that is
    none of the three C8 allows.  Here the request is refused for an
    unauthorized credential. *)
Lemma crash_writes_to_stderr :
  ~ (forallb permitted
       (fst (python3 ascii_table no_frames (stub (Raise unauthorized))
               [script_name; lit "RGAPI-expired"; lit "puuid-1"])) = true).
Proof. discriminate. Qed.

(** C8, with the interpreter's report taken into account.  The effects
    of a run are, in this order: the calls into the client library, at
    most the construction of one client and then one request for region
    jp1; at most one write to standard output; and at most one write to
    standard error, made by the interpreter when the script was stopped
    by an uncaught error (the traceback) or when a client call left the
    interpreter with a report.  No file is read or written and no
    environment variable is read, so nothing of a run outlives it but
    its output and its exit status. *)
Theorem effects_of_a_run :
  forall isprintable frames lib argv,
    forallb (fun e => negb (touches_files_or_environment e))
      (fst (python3 isprintable frames lib argv)) = true
    /\ exists calls printed reported,
         fst (python3 isprintable frames lib argv)
         = calls ++ printed ++ reported
         /\ (calls = []
             \/ (exists api_key, calls = [Construct api_key])
             \/ (exists api_key puuid,
                   calls = [Construct api_key; Request (lit "jp1") puuid]))
         /\ (printed = [] \/ exists text, printed = [Stdout text])
         /\ (reported = []
             \/ (exists e,
                   outcome (main isprintable lib argv) = Stop (Uncaught e)
                   /\ reported = [Stderr (traceback frames e)])
             \/ (exists exit_code report,
                   outcome (main isprintable lib argv)
                   = Stop (ClientLeft exit_code report)
                   /\ reported = [Stderr report])).
Proof.
  intros isprintable frames lib argv. unfold python3. cbn [fst].
  destruct (Nat.eq_dec (List.length argv) 3) as [H3|H3].
  - apply two_arguments in H3 as (prog & api_key & puuid & ->).
    rewrite main_two_arguments.
    destruct (LolWatcher lib api_key) as [w|e|c r];
      [destruct (by_summoner lib w (lit "jp1") puuid) as [game_data|e|c r];
       [destruct (riot_ids_of game_data) as [riot_ids|e|c r]| |]| |].
    + split; [reflexivity|].
      exists [Construct api_key; Request (lit "jp1") puuid],
             [Stdout (repr isprintable (VList riot_ids) ++ newline)], [].
      split; [reflexivity|]. split; [right; right; eauto|].
      split; [right; eauto | now left].
    + split; [reflexivity|].
      exists [Construct api_key; Request (lit "jp1") puuid], [],
             [Stderr (traceback frames e)].
      split; [reflexivity|]. split; [right; right; eauto|].
      split; [now left | right; left; now exists e].
    + split; [destruct r; reflexivity|].
      exists [Construct api_key; Request (lit "jp1") puuid], [],
             (write_stderr r).
      split; [reflexivity|]. split; [right; right; eauto|].
      split; [now left|].
      destruct r as [|ch r]; [now left|].
      right; right. now exists c, (ch :: r).
    + split; [reflexivity|].
      exists [Construct api_key; Request (lit "jp1") puuid], [],
             [Stderr (traceback frames e)].
      split; [reflexivity|]. split; [right; right; eauto|].
      split; [now left | right; left; now exists e].
    + split; [destruct r; reflexivity|].
      exists [Construct api_key; Request (lit "jp1") puuid], [],
             (write_stderr r).
      split; [reflexivity|]. split; [right; right; eauto|].
      split; [now left|].
      destruct r as [|ch r]; [now left|].
      right; right. now exists c, (ch :: r).
    + split; [reflexivity|].
      exists [Construct api_key], [], [Stderr (traceback frames e)].
      split; [reflexivity|]. split; [right; left; eauto|].
      split; [now left | right; left; now exists e].
    + split; [destruct r; reflexivity|].
      exists [Construct api_key], [], (write_stderr r).
      split; [reflexivity|]. split; [right; left; eauto|].
      split; [now left|].
      destruct r as [|ch r]; [now left|].
      right; right. now exists c, (ch :: r).
  - rewrite (main_usage _ _ _ H3). split; [reflexivity|].
    exists [], [Stdout (usage ++ newline)], [].
    split; [reflexivity|]. split; [now left|].
    split; [right; eauto | now left].
Qed.

(** C9. When the argument count is not two, the usage message goes to
    standard output, and nothing goes to standard error. *)
Theorem usage_goes_to_stdout :
  forall isprintable lib argv,
    List.length argv <> 3%nat ->
    trace (main isprintable lib argv) = [Stdout (usage ++ newline)]
    /\ stderr_of (trace (main isprintable lib argv)) = [].
Proof.
  intros isprintable lib argv H. rewrite (main_usage _ _ _ H).
  split; reflexivity.
Qed.

Lemma usage_goes_to_stdout_witness :
  trace (main ascii_table (stub (Ok (game [])))
           [script_name; lit "a"; lit "b"; lit "c"])
  = [Stdout (usage ++ newline)]
  /\ stderr_of (trace (main ascii_table (stub (Ok (game [])))
                         [script_name; lit "a"; lit "b"; lit "c"])) = [].
Proof.
  apply (usage_goes_to_stdout ascii_table (stub (Ok (game [])))
           [script_name; lit "a"; lit "b"; lit "c"]).
  simpl. lia.
Defined.

(** C10. The printed text is a function of the 'riotId' values of the
    response's participants alone: two runs with two arguments each,
    whose clients are built and return responses with the same sequence
    of 'riotId' values (identical responses in particular), write the
    same text to standard output, whatever their credentials and player
    identifiers are. *)
Theorem output_independent_of_arguments :
  forall isprintable lib1 lib2 prog1 api_key1 puuid1 prog2 api_key2 puuid2
         w1 w2 response1 response2,
    LolWatcher lib1 api_key1 = Ok w1 ->
    LolWatcher lib2 api_key2 = Ok w2 ->
    by_summoner lib1 w1 (lit "jp1") puuid1 = Ok response1 ->
    by_summoner lib2 w2 (lit "jp1") puuid2 = Ok response2 ->
    riot_ids_of response1 = riot_ids_of response2 ->
    stdout_of (trace (main isprintable lib1 [prog1; api_key1; puuid1]))
    = stdout_of (trace (main isprintable lib2 [prog2; api_key2; puuid2])).
Proof.
  intros isprintable lib1 lib2 prog1 api_key1 puuid1 prog2 api_key2 puuid2
         w1 w2 response1 response2 Hw1 Hw2 Hr1 Hr2 Hsame.
  rewrite !main_two_arguments, Hw1, Hw2, Hr1, Hr2, Hsame.
  destruct (riot_ids_of response2); reflexivity.
Qed.

Lemma output_independent_of_arguments_witness :
  stdout_of (trace (main ascii_table
                      (stub (Ok (game [player "A#1"; player "B#2"])))
                      [script_name; lit "RGAPI-0000"; lit "puuid-1"]))
  = stdout_of (trace (main ascii_table
                        (keyed_stub (Ok (game [player "A#1"; player "B#2"])))
                        [script_name; lit "RGAPI-9999"; lit "puuid-2"])).
Proof.
  apply (output_independent_of_arguments ascii_table
           (stub (Ok (game [player "A#1"; player "B#2"])))
           (keyed_stub (Ok (game [player "A#1"; player "B#2"])))
           script_name (lit "RGAPI-0000") (lit "puuid-1")
           script_name (lit "RGAPI-9999") (lit "puuid-2")
           tt (lit "RGAPI-9999")
           (game [player "A#1"; player "B#2"])
           (game [player "A#1"; player "B#2"])).
  - reflexivity.
  - reflexivity.
  - reflexivity.
  - reflexivity.
  - reflexivity.
Defined.

(** * Further properties of the script *)

(** ** The comprehension, element by element *)

Lemma comprehension_exact (f : value -> result value) xs ys :
  comprehension f xs = Ok ys -> Forall2 (fun x y => f x = Ok y) xs ys.
Proof.
  revert ys. induction xs as [|x xs IH]; simpl; intros ys H.
  - injection H as <-. constructor.
  - destruct (f x) as [y|e|c r] eqn:Hx; simpl in H; try discriminate.
    destruct (comprehension f xs) as [ys'|e|c r]; simpl in H;
      try discriminate.
    injection H as <-. constructor; [exact Hx | now apply IH].
Qed.

Lemma comprehension_first_failure (f : value -> result value)
    good bad rest ys e :
  Forall2 (fun x y => f x = Ok y) good ys ->
  f bad = Raise e ->
  comprehension f (good ++ bad :: rest) = Raise e.
Proof.
  intros Hgood Hbad.
  induction Hgood as [|x y good ys Hx _ IH]; simpl.
  - rewrite Hbad. reflexivity.
  - rewrite Hx. simpl. rewrite IH. reflexivity.
Qed.

(** X1. For a client that returns or raises errors, and never leaves
    the interpreter itself, the exit status is 0 or 1 whatever the
    arguments, and it is 0 exactly when there were two arguments, the
    client was built, the request returned and the comprehension went
    through; the run of the script is then the construction, the request
    and the one print of the list. *)
Theorem status_zero_iff_list_printed :
  forall isprintable lib argv,
    raises_errors_only lib ->
    (status (main isprintable lib argv) = 0%Z
     \/ status (main isprintable lib argv) = 1%Z)
    /\ (status (main isprintable lib argv) = 0%Z <->
        exists prog api_key puuid w game_data riot_ids,
          argv = [prog; api_key; puuid]
          /\ LolWatcher lib api_key = Ok w
          /\ by_summoner lib w (lit "jp1") puuid = Ok game_data
          /\ riot_ids_of game_data = Ok riot_ids
          /\ trace (main isprintable lib argv)
             = [Construct api_key; Request (lit "jp1") puuid;
                Stdout (repr isprintable (VList riot_ids) ++ newline)]).
Proof.
  intros isprintable lib argv [Hbuild Hrequest].
  destruct (Nat.eq_dec (List.length argv) 3) as [H3|H3].
  - apply two_arguments in H3 as (prog & api_key & puuid & ->).
    rewrite main_two_arguments.
    destruct (LolWatcher lib api_key) as [w|e|c r] eqn:Hw;
      [destruct (by_summoner lib w (lit "jp1") puuid)
         as [game_data|e|c r] eqn:Hr;
       [destruct (riot_ids_of game_data) as [riot_ids|e|c r] eqn:Hids| |]| |].
    + split; [now left|]. split; [intros _|reflexivity].
      exists prog, api_key, puuid, w, game_data, riot_ids.
      rewrite Hw. repeat split; assumption.
    + split; [now right|]. split; [discriminate|].
      intros (p & k & u & w' & g & ids & [= <- <- <-] & Hw' & Hr' & Hids' & _).
      rewrite Hw in Hw'. injection Hw' as <-.
      rewrite Hr in Hr'. injection Hr' as <-.
      rewrite Hids in Hids'. discriminate.
    + now apply riot_ids_of_stays in Hids.
    + split; [now right|]. split; [discriminate|].
      intros (p & k & u & w' & g & ids & [= <- <- <-] & Hw' & Hr' & _).
      rewrite Hw in Hw'. injection Hw' as <-.
      rewrite Hr in Hr'. discriminate.
    + now apply Hrequest in Hr.
    + split; [now right|]. split; [discriminate|].
      intros (p & k & u & w' & g & ids & [= <- <- <-] & Hw' & _).
      rewrite Hw in Hw'. discriminate.
    + now apply Hbuild in Hw.
  - rewrite (main_usage _ _ _ H3).
    split; [now right|]. split; [discriminate|].
    intros (p & k & u & _ & _ & _ & -> & _). now destruct H3.
Qed.

Lemma status_zero_iff_list_printed_witness :
  raises_errors_only (stub (Ok (game [player "A#1"])))
  /\ exists prog api_key puuid riot_ids,
       [script_name; lit "RGAPI-0000"; lit "puuid-1"] = [prog; api_key; puuid]
       /\ riot_ids_of (game [player "A#1"]) = Ok riot_ids.
Proof.
  assert (Hlib : raises_errors_only (stub (Ok (game [player "A#1"]))))
    by (split; intros; discriminate).
  split; [exact Hlib|].
  destruct (proj1 (proj2 (status_zero_iff_list_printed ascii_table
                            (stub (Ok (game [player "A#1"])))
                            [script_name; lit "RGAPI-0000"; lit "puuid-1"]
                            Hlib))
              eq_refl)
    as (prog & api_key & puuid & w & game_data & riot_ids
        & Hargv & _ & Hr & Hids & _).
  exists prog, api_key, puuid, riot_ids. split; [exact Hargv|].
  injection Hr as ->. exact Hids.
Defined.

(** X2. A successful run over a list of participants has skipped none:
    if the status is 0, every participant has a 'riotId', and the printed
    list holds those values, one per participant and in their order. *)
Theorem success_skips_no_participant :
  forall isprintable lib prog api_key puuid w game_data participants,
    LolWatcher lib api_key = Ok w ->
    by_summoner lib w (lit "jp1") puuid = Ok game_data ->
    getitem game_data (lit "participants") = Ok (VList participants) ->
    status (main isprintable lib [prog; api_key; puuid]) = 0%Z ->
    exists ids,
      Forall2 (fun p id => getitem p (lit "riotId") = Ok id) participants ids
      /\ List.length ids = List.length participants
      /\ stdout_of (trace (main isprintable lib [prog; api_key; puuid]))
         = repr isprintable (VList ids) ++ newline.
Proof.
  intros isprintable lib prog api_key puuid w game_data participants
         Hw Hr Hps.
  rewrite main_two_arguments, Hw, Hr.
  unfold riot_ids_of. rewrite Hps. cbn [result_bind iter].
  destruct (comprehension _ participants) as [ids|e|c r] eqn:Hc;
    [|discriminate|now apply comprehension_stays in Hc].
  intros _. exists ids. apply comprehension_exact in Hc.
  split; [exact Hc|]. split.
  - symmetry. exact (Forall2_length Hc).
  - unfold trace. cbn [fst stdout_of]. now rewrite app_nil_r.
Qed.

Lemma success_skips_no_participant_witness :
  exists ids,
    Forall2 (fun p id => getitem p (lit "riotId") = Ok id)
      [player "A#1"; player "B#2"; player "C#3"] ids
    /\ List.length ids = 3%nat.
Proof.
  destruct (success_skips_no_participant ascii_table
              (stub (Ok (game [player "A#1"; player "B#2"; player "C#3"])))
              script_name (lit "RGAPI-0000") (lit "puuid-1") tt
              (game [player "A#1"; player "B#2"; player "C#3"])
              [player "A#1"; player "B#2"; player "C#3"]
              eq_refl eq_refl eq_refl eq_refl)
    as (ids & Hall & Hlen & _).
  exists ids. split; [exact Hall | exact Hlen].
Defined.

(** X3. The first participant without a 'riotId' decides the failure:
    when the participants before it all have one, the run stops on the
    exception of that participant's subscript, whatever comes after it,
    and nothing is written to standard output, not even the names
    already collected. *)
Theorem first_bad_participant_decides :
  forall isprintable lib prog api_key puuid w game_data good bad rest ids e,
    LolWatcher lib api_key = Ok w ->
    by_summoner lib w (lit "jp1") puuid = Ok game_data ->
    getitem game_data (lit "participants") = Ok (VList (good ++ bad :: rest)) ->
    Forall2 (fun p id => getitem p (lit "riotId") = Ok id) good ids ->
    getitem bad (lit "riotId") = Raise e ->
    outcome (main isprintable lib [prog; api_key; puuid]) = Stop (Uncaught e)
    /\ stdout_of (trace (main isprintable lib [prog; api_key; puuid])) = [].
Proof.
  intros isprintable lib prog api_key puuid w game_data good bad rest ids e
         Hw Hr Hps Hgood Hbad.
  rewrite main_two_arguments, Hw, Hr.
  unfold riot_ids_of. rewrite Hps. cbn [result_bind iter].
  rewrite (comprehension_first_failure _ _ _ _ _ _ Hgood Hbad).
  split; reflexivity.
Qed.

Lemma first_bad_participant_decides_witness :
  outcome (main ascii_table
             (stub (Ok (game [player "A#1"; nameless; VNone; player "D#4"])))
             [script_name; lit "RGAPI-0000"; lit "puuid-1"])
  = Stop (Uncaught (KeyError (lit "riotId")))
  /\ stdout_of
       (trace (main ascii_table
                 (stub (Ok (game [player "A#1"; nameless; VNone; player "D#4"])))
                 [script_name; lit "RGAPI-0000"; lit "puuid-1"])) = [].
Proof.
  refine (first_bad_participant_decides ascii_table
            (stub (Ok (game [player "A#1"; nameless; VNone; player "D#4"])))
            script_name (lit "RGAPI-0000") (lit "puuid-1") tt
            (game [player "A#1"; nameless; VNone; player "D#4"])
            [player "A#1"] nameless [VNone; player "D#4"]
            [VStr (lit "A#1")] (KeyError (lit "riotId")) _ _ _ _ _).
  - reflexivity.
  - reflexivity.
  - reflexivity.
  - repeat constructor.
  - reflexivity.
Defined.

(** X4. A 'participants' value that is not a list is not rejected as
    such.  An empty string or an empty dict is iterated like an empty
    list: the run prints [] and exits with status 0.  Anything else stops
    the run on a TypeError: a non-empty string or dict yields strings,
    which take no string subscript, and the other values are not
    iterable. *)
Theorem participants_not_a_list :
  forall isprintable lib prog api_key puuid w game_data participants,
    LolWatcher lib api_key = Ok w ->
    by_summoner lib w (lit "jp1") puuid = Ok game_data ->
    getitem game_data (lit "participants") = Ok participants ->
    is_list participants = false ->
    main isprintable lib [prog; api_key; puuid]
    = match participants with
      | VStr [] | VDict [] =>
          ([Construct api_key; Request (lit "jp1") puuid;
            Stdout (lit "[]" ++ newline)], Next tt)
      | _ =>
          ([Construct api_key; Request (lit "jp1") puuid],
           Stop (Uncaught TypeError))
      end.
Proof.
  intros isprintable lib prog api_key puuid w game_data participants
         Hw Hr Hps Hnl.
  rewrite main_two_arguments, Hw, Hr.
  unfold riot_ids_of. rewrite Hps. cbn [result_bind].
  destruct participants as [| b | z | shown | s | items | items];
    try reflexivity.
  - destruct s as [|c s]; reflexivity.
  - discriminate Hnl.
  - destruct items as [|[k v] items]; reflexivity.
Qed.

Lemma participants_not_a_list_witness :
  status (main ascii_table
            (stub (Ok (VDict [(lit "participants", VDict [])])))
            [script_name; lit "RGAPI-0000"; lit "puuid-1"]) = 0%Z
  /\ outcome (main ascii_table
                (stub (Ok (VDict [(lit "participants", VStr (lit "A#1"))])))
                [script_name; lit "RGAPI-0000"; lit "puuid-1"])
     = Stop (Uncaught TypeError).
Proof.
  split.
  - rewrite (participants_not_a_list ascii_table
               (stub (Ok (VDict [(lit "participants", VDict [])])))
               script_name (lit "RGAPI-0000") (lit "puuid-1") tt
               (VDict [(lit "participants", VDict [])]) (VDict [])
               eq_refl eq_refl eq_refl eq_refl).
    reflexivity.
  - rewrite (participants_not_a_list ascii_table
               (stub (Ok (VDict [(lit "participants", VStr (lit "A#1"))])))
               script_name (lit "RGAPI-0000") (lit "puuid-1") tt
               (VDict [(lit "participants", VStr (lit "A#1"))])
               (VStr (lit "A#1"))
               eq_refl eq_refl eq_refl eq_refl).
    reflexivity.
Defined.

(** X5. When subscripting the response by 'participants' fails, the
    exception tells why: a dict without that key gives the KeyError that
    names 'participants', and a response that is no dict gives a
    TypeError.  Either way the request has been sent and nothing is
    printed. *)
Theorem missing_participants_diagnostic :
  forall isprintable lib prog api_key puuid w game_data,
    LolWatcher lib api_key = Ok w ->
    by_summoner lib w (lit "jp1") puuid = Ok game_data ->
    has_field game_data (lit "participants") = false ->
    main isprintable lib [prog; api_key; puuid]
    = ([Construct api_key; Request (lit "jp1") puuid],
       Stop (Uncaught match game_data with
                      | VDict _ => KeyError (lit "participants")
                      | _ => TypeError
                      end)).
Proof.
  intros isprintable lib prog api_key puuid w game_data Hw Hr Hno.
  rewrite main_two_arguments, Hw, Hr.
  unfold riot_ids_of. unfold has_field in Hno.
  destruct game_data as [| b | z | shown | s | items | items];
    try reflexivity.
  simpl in Hno |- *.
  destruct (dict_get (lit "participants") items); [discriminate|reflexivity].
Qed.

Lemma missing_participants_diagnostic_witness :
  outcome (main ascii_table
             (stub (Ok (VDict [(lit "gameId", VInt 7271)])))
             [script_name; lit "RGAPI-0000"; lit "puuid-1"])
  = Stop (Uncaught (KeyError (lit "participants")))
  /\ outcome (main ascii_table (stub (Ok VNone))
                [script_name; lit "RGAPI-0000"; lit "puuid-1"])
     = Stop (Uncaught TypeError).
Proof.
  split.
  - rewrite (missing_participants_diagnostic ascii_table
               (stub (Ok (VDict [(lit "gameId", VInt 7271)])))
               script_name (lit "RGAPI-0000") (lit "puuid-1") tt
               (VDict [(lit "gameId", VInt 7271)])
               eq_refl eq_refl eq_refl).
    reflexivity.
  - rewrite (missing_participants_diagnostic ascii_table (stub (Ok VNone))
               script_name (lit "RGAPI-0000") (lit "puuid-1") tt VNone
               eq_refl eq_refl eq_refl).
    reflexivity.
Defined.

(** X6. With two arguments and a client that returns or raises errors,
    and never leaves the interpreter itself, silence on standard output
    and failure go together: nothing is printed exactly when the exit
    status is 1. *)
Theorem silent_iff_failed :
  forall isprintable lib prog api_key puuid,
    raises_errors_only lib ->
    (stdout_of (trace (main isprintable lib [prog; api_key; puuid])) = []
     <-> status (main isprintable lib [prog; api_key; puuid]) = 1%Z).
Proof.
  intros isprintable lib prog api_key puuid [Hbuild Hrequest].
  rewrite main_two_arguments.
  destruct (LolWatcher lib api_key) as [w|e|c r] eqn:Hw;
    [destruct (by_summoner lib w (lit "jp1") puuid)
       as [game_data|e|c r] eqn:Hr;
     [destruct (riot_ids_of game_data) as [riot_ids|e|c r] eqn:Hids| |]| |];
    try (split; reflexivity).
  - unfold trace, status. cbn [fst snd stdout_of exit_status].
    split; [|discriminate].
    rewrite app_nil_r. intros H. apply app_eq_nil in H as [_ H].
    discriminate H.
  - now apply riot_ids_of_stays in Hids.
  - now apply Hrequest in Hr.
  - now apply Hbuild in Hw.
Qed.

Lemma silent_iff_failed_witness :
  raises_errors_only (stub (Raise unauthorized))
  /\ stdout_of (trace (main ascii_table (stub (Raise unauthorized))
                         [script_name; lit "RGAPI-expired"; lit "puuid-1"]))
     = [].
Proof.
  assert (Hlib : raises_errors_only (stub (Raise unauthorized)))
    by (split; intros; discriminate).
  split; [exact Hlib|].
  apply (proj2 (silent_iff_failed ascii_table (stub (Raise unauthorized))
                  script_name (lit "RGAPI-expired") (lit "puuid-1") Hlib)).
  reflexivity.
Defined.

(** X7. With two arguments, the first thing that happens is the
    construction of the client from the first argument, as given; no
    second client is built, whether the run succeeds or fails. *)
Theorem credential_builds_one_client :
  forall isprintable lib prog api_key puuid,
    exists rest,
      trace (main isprintable lib [prog; api_key; puuid])
      = Construct api_key :: rest
      /\ constructions_of rest = [].
Proof.
  intros isprintable lib prog api_key puuid.
  rewrite main_two_arguments.
  destruct (LolWatcher lib api_key) as [w|e|c r];
    [destruct (by_summoner lib w (lit "jp1") puuid) as [game_data|e|c r];
     [destruct (riot_ids_of game_data) as [riot_ids|e|c r]| |]| |];
    eexists; split; reflexivity.
Qed.

(** ** The printed line *)

Lemma visible c : 32 <= c -> c <> 127 -> ascii_control c = false.
Proof.
  intros Hlo Hne. unfold ascii_control.
  destruct (N.ltb_spec c 32) as [Hlt|_]; [lia|].
  destruct (N.eqb_spec c 127) as [He|_]; [contradiction|reflexivity].
Qed.

Lemma hex_at_visible ch nibble : ascii_control (hex_at ch nibble) = false.
Proof.
  unfold hex_at, hexdigit.
  assert (H : N.land (N.shiftr ch (4 * nibble)) 15 < 16).
  { change 15 with (N.ones 4). rewrite N.land_ones.
    apply N.mod_lt. discriminate. }
  destruct (N.ltb_spec (N.land (N.shiftr ch (4 * nibble)) 15) 10);
    apply visible; lia.
Qed.

Lemma quote_for_cases s :
  quote_for s = double_quote \/ quote_for s = single_quote.
Proof.
  unfold quote_for.
  destruct (existsb (N.eqb single_quote) s && negb (existsb (N.eqb double_quote) s));
    [now left | now right].
Qed.

Lemma repr_char_visible isprintable quote ch :
  quote = double_quote \/ quote = single_quote ->
  Forall (fun c => ascii_control c = false) (repr_char isprintable quote ch).
Proof.
  intros Hq. unfold repr_char.
  destruct ((ch =? quote) || (ch =? backslash)) eqn:Hesc.
  - apply orb_true_iff in Hesc as [H|H]; apply N.eqb_eq in H; subst ch;
      [destruct Hq as [-> | ->]|]; repeat constructor.
  - destruct (N.eqb_spec ch 9); [repeat constructor|].
    destruct (N.eqb_spec ch 10); [repeat constructor|].
    destruct (N.eqb_spec ch 13); [repeat constructor|].
    destruct (N.ltb_spec ch 32) as [Hlt|Hge]; cbn [orb].
    { repeat constructor; apply hex_at_visible. }
    destruct (N.eqb_spec ch 127) as [->|Hne].
    { repeat constructor; apply hex_at_visible. }
    destruct (N.ltb_spec ch 127) as [Hlt|Hge'].
    { repeat constructor. now apply visible. }
    destruct (isprintable ch).
    { repeat constructor. now apply visible. }
    destruct (ch <=? 255); [|destruct (ch <=? 65535)];
      repeat constructor; apply hex_at_visible.
Qed.

Lemma repr_str_visible isprintable s :
  Forall (fun c => ascii_control c = false) (repr_str isprintable s).
Proof.
  unfold repr_str.
  pose proof (quote_for_cases s) as Hq.
  apply Forall_app; split; [|apply Forall_app; split].
  - destruct Hq as [-> | ->]; repeat constructor.
  - apply Forall_flat_map, Forall_forall. intros ch _.
    now apply repr_char_visible.
  - destruct Hq as [-> | ->]; repeat constructor.
Qed.

Lemma join_visible sep parts :
  Forall (fun c => ascii_control c = false) sep ->
  Forall (Forall (fun c => ascii_control c = false)) parts ->
  Forall (fun c => ascii_control c = false) (join sep parts).
Proof.
  intros Hsep. induction 1 as [|p rest Hp Hrest IH]; [constructor|].
  destruct rest as [|q rest]; [exact Hp|].
  change (join sep (p :: q :: rest)) with (p ++ sep ++ join sep (q :: rest)).
  apply Forall_app; split; [exact Hp|].
  apply Forall_app; split; [exact Hsep | exact IH].
Qed.

(** X8. When every 'riotId' is a string, what a successful run prints is
    one line free of ASCII control characters: the text before the final
    newline holds no code point below 32 and no DEL, whatever the names
    contain (a newline, a carriage return or an escape in a name is
    printed escaped). *)
Theorem printed_line_has_no_control_character :
  forall isprintable lib prog api_key puuid w game_data riot_ids,
    LolWatcher lib api_key = Ok w ->
    by_summoner lib w (lit "jp1") puuid = Ok game_data ->
    riot_ids_of game_data = Ok riot_ids ->
    forallb is_str riot_ids = true ->
    exists line,
      stdout_of (trace (main isprintable lib [prog; api_key; puuid]))
      = line ++ newline
      /\ Forall (fun c => ascii_control c = false) line.
Proof.
  intros isprintable lib prog api_key puuid w game_data riot_ids
         Hw Hr Hids Hstr.
  rewrite main_two_arguments, Hw, Hr, Hids.
  exists (repr isprintable (VList riot_ids)). split.
  - unfold trace. cbn [fst stdout_of]. now rewrite app_nil_r.
  - cbn [repr]. apply Forall_app; split; [|apply Forall_app; split].
    + repeat constructor.
    + apply join_visible; [repeat constructor|].
      apply Forall_map, Forall_forall. intros id Hin.
      rewrite forallb_forall in Hstr. specialize (Hstr id Hin).
      destruct id; try discriminate Hstr.
      apply repr_str_visible.
    + repeat constructor.
Qed.

Lemma printed_line_has_no_control_character_witness :
  exists line,
    stdout_of
      (trace (main ascii_table
                (stub (Ok (game [VDict [(lit "riotId",
                                         VStr (lit "A" ++ [10; 27] ++ lit "#1"))]])))
                [script_name; lit "RGAPI-0000"; lit "puuid-1"]))
    = line ++ newline
    /\ Forall (fun c => ascii_control c = false) line.
Proof.
  apply (printed_line_has_no_control_character ascii_table
           (stub (Ok (game [VDict [(lit "riotId",
                                    VStr (lit "A" ++ [10; 27] ++ lit "#1"))]])))
           script_name (lit "RGAPI-0000") (lit "puuid-1") tt
           (game [VDict [(lit "riotId",
                          VStr (lit "A" ++ [10; 27] ++ lit "#1"))]])
           [VStr (lit "A" ++ [10; 27] ++ lit "#1")]).
  - reflexivity.
  - reflexivity.
  - reflexivity.
  - reflexivity.
Defined.
